(** * The Block Manager binding (sawtooth_validator/journal/block_manager.py)

    The Python module is a thin binding: every operation marshals its
    arguments, performs one call into a native library through
    [library.call(name, *args)], and turns the integer the call returns into
    a Python exception.  The development follows that shape.

    - Python values that cross the boundary are [CArg]s; a native call is a
      triple (library, function name, argument list).
    - A wrapper is a [Prog]: a tree whose nodes are native calls.  Running it
      against a native library gives the result (a value or a raised
      exception), the native state reached and the list of native calls made.
    - The native library itself is not part of the Python module.  The
      wrapper is verified for every native library; the statements about the
      engine's own behaviour ([put], [contains]) are settled against an
      engine modelled from the specification ([engine_native]). *)

From Stdlib Require Import ZArith String List DecimalString DecimalZ DecimalPos.
From Stdlib.Strings Require Import Byte.
From stdpp Require Import base option list gmap strings.

Local Open Scope Z_scope.
Local Open Scope string_scope.

(** ** Python data *)

(** [bytes] objects. *)
Abbreviation PyBytes := (list byte).

(** [str.encode()] on the identifiers and store names handed to the binding.
    They are ASCII text (hex digests, store names), on which the UTF-8
    encoding is the byte-for-byte image of the string. *)
Definition encode (s : string) : PyBytes := list_byte_of_string s.

(** [len(x)] as the integer stored in a [ctypes.c_size_t]: a Python length is
    at most [sys.maxsize], which fits [size_t], so the conversion is exact. *)
Definition len {A} (l : list A) : Z := Z.of_nat (length l).

(** The classes that can leave the module as a raised exception.  The first
    four are declared at the top of the module; [TypeError], [StopIteration]
    and [Exception] are builtins; [IndexError] is what a ctypes array raises
    on an index outside it; [DecodeError] is what the protobuf codec raises
    from [ParseFromString]. *)
Inductive PyExc : Type :=
| MissingPredecessor (msg : string)
| MissingPredecessorInBranch (msg : string)
| MissingInput (msg : string)
| UnknownBlock (msg : string)
| TypeError (msg : string)
| StopIteration
| Exception (msg : string)
| IndexError (msg : string)
| DecodeError.

(** The class of a raised exception: what an [except] clause matches on. *)
Inductive ExcClass : Type :=
| MissingPredecessor_cls
| MissingPredecessorInBranch_cls
| MissingInput_cls
| UnknownBlock_cls
| TypeError_cls
| StopIteration_cls
| Exception_cls
| IndexError_cls
| DecodeError_cls.

Definition exc_class (e : PyExc) : ExcClass :=
  match e with
  | MissingPredecessor _ => MissingPredecessor_cls
  | MissingPredecessorInBranch _ => MissingPredecessorInBranch_cls
  | MissingInput _ => MissingInput_cls
  | UnknownBlock _ => UnknownBlock_cls
  | TypeError _ => TypeError_cls
  | StopIteration => StopIteration_cls
  | Exception _ => Exception_cls
  | IndexError _ => IndexError_cls
  | DecodeError => DecodeError_cls
  end.

(** [class ErrorCode(IntEnum)] *)
Module ErrorCode.
Definition Success : Z := 0.
Definition NullPointerProvided : Z := 0x01.
Definition MissingPredecessor : Z := 0x02.
Definition MissingPredecessorInBranch : Z := 0x03.
Definition MissingInput : Z := 0x04.
Definition UnknownBlock : Z := 0x05.
Definition InvalidInputString : Z := 0x06.
Definition Error : Z := 0x07.
Definition InvalidPythonObject : Z := 0x0F.
Definition StopIteration : Z := 0x11.
End ErrorCode.

(** ["{}".format(res)] for an integer: its decimal numeral. *)
Definition format_int (res : Z) : string :=
  NilZero.string_of_int (Z.to_int res).

(** A native pointer; [NULL] is the value a fresh [ctypes.c_void_p()] holds
    and the only one that is falsy. *)
Definition NULL : Z := 0.
Definition is_null (p : Z) : bool := Z.eqb p NULL.

(** [class _PutEntry(ctypes.Structure)]: the two fields, and [new]. *)
Module _PutEntry.
Record t : Type := mk { block_bytes : PyBytes; block_bytes_len : Z }.

Definition new (block_bytes : PyBytes) : t :=
  mk block_bytes (len block_bytes).
End _PutEntry.

(** The three words of a Rust vector handed back through out-parameters. *)
Record RustVec : Type := { vec_ptr : Z; vec_len : Z; vec_cap : Z }.

(** [ffi.LIBRARY] and [ffi.PY_LIBRARY], the two handles [_libexec] and
    [_pylibexec] call through. *)
Inductive Lib : Type := LIBRARY | PY_LIBRARY.

(** What a Python call returns: a value, or a raised exception. *)
Inductive PyResult (A : Type) : Type :=
| Returned (a : A)
| Raised (e : PyExc).
Arguments Returned {A} a.
Arguments Raised {A} e.

Definition returns_normally {A} (r : PyResult A) : Prop :=
  match r with Returned _ => True | Raised _ => False end.

(** [enumerate(xs)] *)
Definition enumerate {A} (xs : list A) : list (nat * A) :=
  zip (seq 0 (length xs)) xs.

(** ** What the module imports and does not define *)

(** [sawtooth_validator.protobuf.block_pb2.Block] with its codec.  Block is a
    proto3 message: [SerializeToString] is total; [ParseFromString] raises
    [DecodeError] on bytes that are no Block ([None] here). *)
Class Codec (Block : Type) : Type := {
  SerializeToString : Block -> PyBytes;
  ParseFromString : PyBytes -> option Block
}.

(** [ffi.prepare_vec_result()]: the three fresh out-parameters of a vector
    result; [ffi.from_rust_vec(ptr, len, cap)]: the bytes of the vector. *)
Class Ffi : Type := {
  prepare_vec_result : RustVec;
  from_rust_vec : RustVec -> PyBytes
}.

(** ** The native boundary *)

(** The ctypes values passed to a native function.  An array is a list of
    slots, [None] being the NULL a fresh array holds; [py_object] carries the
    address of the Python object. *)
Inductive CArg : Type :=
| c_void_p (p : Z)
| c_char_p (b : PyBytes)
| c_size_t (n : Z)
| c_bool (b : bool)
| py_object (o : Z)
| c_put_entry_array (arr : list (option _PutEntry.t))
| c_char_p_array (arr : list (option PyBytes))
| byref (init : CArg).

(** One native call: [library.call(name, *args)]. *)
Definition NativeCall : Type := Lib * string * list CArg.

(** What the call leaves behind: the integer it returns and the values its
    by-reference arguments hold afterwards (for an argument the native side
    did not write, the value it was created with). *)
Record NativeReply : Type := {
  res : Z;
  out_ptr : Z;
  out_bool : bool;
  out_vec : RustVec
}.

(** A native library over a state [S]. *)
Definition Native (S : Type) : Type :=
  Lib -> string -> list CArg -> S -> NativeReply * S.

(** A wrapper: returns, raises, or calls the native library and goes on with
    the reply. *)
Inductive Prog (A : Type) : Type :=
| Return (a : A)
| Raise (e : PyExc)
| LibCall (library : Lib) (name : string) (args : list CArg)
          (k : NativeReply -> Prog A).
Arguments Return {A} a.
Arguments Raise {A} e.
Arguments LibCall {A} library name args k.

Fixpoint bind {A B} (p : Prog A) (f : A -> Prog B) : Prog B :=
  match p with
  | Return a => f a
  | Raise e => Raise e
  | LibCall l n args k => LibCall l n args (fun r => bind (k r) f)
  end.

Notation "x <- p ;; q" := (bind p (fun x => q))
  (at level 100, p at next level, right associativity).

(** A [for] loop that threads the value it updates. *)
Fixpoint for_each {A X} (xs : list X) (acc : A) (body : A -> X -> Prog A)
  : Prog A :=
  match xs with
  | [] => Return acc
  | x :: xs' => acc' <- body acc x ;; for_each xs' acc' body
  end.

(** [arr[i] = x] on a ctypes array: [IndexError] outside the array. *)
Definition setitem {A} (arr : list (option A)) (i : nat) (x : A)
  : Prog (list (option A)) :=
  if decide (i < length arr)%nat then Return (<[i := Some x]> arr)
  else Raise (IndexError "invalid index").

(** Running a wrapper against a native library: the result, the native state
    reached, and the native calls made, in order. *)
Record Outcome (S A : Type) : Type := {
  result : PyResult A;
  final : S;
  calls : list NativeCall
}.
Arguments result {S A} o.
Arguments final {S A} o.
Arguments calls {S A} o.

Fixpoint run {S A} (native : Native S) (p : Prog A) (s : S) : Outcome S A :=
  match p with
  | Return a => {| result := Returned a; final := s; calls := [] |}
  | Raise e => {| result := Raised e; final := s; calls := [] |}
  | LibCall l n args k =>
      let '(r, s') := native l n args s in
      let o := run native (k r) s' in
      {| result := result o; final := final o;
         calls := (l, n, args) :: calls o |}
  end.

(** ** The module's functions *)

(** [_exec] returns nothing in Python; here it hands back the reply, through
    which the caller reads its by-reference arguments. *)
Definition _exec (library : Lib) (name : string) (args : list CArg)
  : Prog NativeReply :=
  LibCall library name args (fun r =>
    let res := res r in
    if Z.eqb res ErrorCode.Success then Return r
    else if Z.eqb res ErrorCode.NullPointerProvided then
      Raise (TypeError "Provided null pointer(s)")
    else if Z.eqb res ErrorCode.StopIteration then
      Raise StopIteration
    else if Z.eqb res ErrorCode.MissingPredecessor then
      Raise (MissingPredecessor "Missing predecessor")
    else if Z.eqb res ErrorCode.MissingPredecessorInBranch then
      Raise (MissingPredecessorInBranch "Missing predecessor")
    else if Z.eqb res ErrorCode.MissingInput then
      Raise (MissingInput "Missing input to put method")
    else if Z.eqb res ErrorCode.UnknownBlock then
      Raise (UnknownBlock "Block was unknown")
    else if Z.eqb res ErrorCode.InvalidInputString then
      Raise (TypeError "Invalid block store name provided")
    else
      Raise (Exception ("There was an unknown error: " ++ format_int res))).

Definition _libexec (name : string) (args : list CArg) : Prog NativeReply :=
  _exec LIBRARY name args.

Definition _pylibexec (name : string) (args : list CArg) : Prog NativeReply :=
  _exec PY_LIBRARY name args.

(** [class _BlockIterator]: the class attribute [name] of the subclass and
    the cursor pointer the constructor stores. *)
Module _BlockIterator.

Record t : Type := mk { name : string; _c_iter_ptr : Z }.

Definition __del__ (self : t) : Prog unit :=
  if negb (is_null (_c_iter_ptr self)) then
    _ <- _libexec (name self ++ "_drop") [c_void_p (_c_iter_ptr self)] ;;
    Return tt
  else Return tt.

Definition __iter__ (self : t) : t := self.

Definition __next__ `{Ffi} `{Codec Block} (self : t) : Prog Block :=
  if is_null (_c_iter_ptr self) then Raise StopIteration
  else
    let vec := prepare_vec_result in
    r <- _libexec (name self ++ "_next")
           [c_void_p (_c_iter_ptr self);
            byref (c_void_p (vec_ptr vec));
            byref (c_size_t (vec_len vec));
            byref (c_size_t (vec_cap vec))] ;;
    let vec := out_vec r in
    if is_null (vec_ptr vec) then Raise StopIteration
    else
      let payload := from_rust_vec vec in
      match ParseFromString payload with
      | Some block => Return block
      | None => Raise DecodeError
      end.

End _BlockIterator.

(** The object a subclass constructor has built once its native [_new] call
    is back: the pointer is what the by-reference argument, created NULL,
    holds then.  When [_exec] raises, this is the object left to [__del__]. *)
Definition constructed (name : string) (r : NativeReply) : _BlockIterator.t :=
  _BlockIterator.mk name (out_ptr r).

Module _GetBlockIterator.

Definition name : string := "block_manager_get_iterator".

Definition __init__ (block_manager_ptr : Z) (block_ids : list string)
  : Prog _BlockIterator.t :=
  c_block_ids <- for_each (enumerate block_ids)
                   (replicate (length block_ids) None)
                   (fun arr '(i, block_id) => setitem arr i (encode block_id)) ;;
  r <- _libexec (name ++ "_new")
         [c_void_p block_manager_ptr;
          c_char_p_array c_block_ids;
          c_size_t (len block_ids);
          byref (c_void_p NULL)] ;;
  Return (constructed name r).

End _GetBlockIterator.

Module _BranchDiffIterator.

Definition name : string := "block_manager_branch_diff_iterator".

Definition __init__ (block_manager_ptr : Z) (tip exclude : string)
  : Prog _BlockIterator.t :=
  let c_tip := c_char_p (encode tip) in
  let c_exclude := c_char_p (encode exclude) in
  r <- _libexec (name ++ "_new")
         [c_void_p block_manager_ptr; c_tip; c_exclude;
          byref (c_void_p NULL)] ;;
  Return (constructed name r).

End _BranchDiffIterator.

Module _BranchIterator.

Definition name : string := "block_manager_branch_iterator".

Definition __init__ (block_manager_ptr : Z) (tip : string)
  : Prog _BlockIterator.t :=
  let c_tip := c_char_p (encode tip) in
  r <- _libexec (name ++ "_new")
         [c_void_p block_manager_ptr; c_tip; byref (c_void_p NULL)] ;;
  Return (constructed name r).

End _BranchIterator.

(** [class BlockManager(OwnedPointer)]: the object is its native handle. *)
Module BlockManager.

Record t : Type := mk { pointer : Z }.

Definition __init__ : Prog t :=
  r <- _libexec "block_manager_new" [byref (c_void_p NULL)] ;;
  Return (mk (out_ptr r)).

Definition add_store (self : t) (name : string) (block_store : Z)
  : Prog unit :=
  _ <- _pylibexec "block_manager_add_store"
         [c_void_p (pointer self);
          c_char_p (encode name);
          py_object block_store] ;;
  Return tt.

Definition put `{Codec Block} (self : t) (branch : list Block) : Prog unit :=
  c_put_items <- for_each (enumerate branch)
                   (replicate (length branch) None)
                   (fun arr '(i, block) =>
                      setitem arr i (_PutEntry.new (SerializeToString block))) ;;
  _ <- _libexec "block_manager_put"
         [c_void_p (pointer self);
          c_put_entry_array c_put_items;
          c_size_t (len branch)] ;;
  Return tt.

Definition ref_block (self : t) (block_id : string) : Prog unit :=
  _ <- _libexec "block_manager_ref_block"
         [c_void_p (pointer self); c_char_p (encode block_id)] ;;
  Return tt.

Definition unref_block (self : t) (block_id : string) : Prog unit :=
  _ <- _libexec "block_manager_unref_block"
         [c_void_p (pointer self); c_char_p (encode block_id)] ;;
  Return tt.

Definition persist (self : t) (block_id store_name : string) : Prog unit :=
  _ <- _libexec "block_manager_persist"
         [c_void_p (pointer self);
          c_char_p (encode block_id);
          c_char_p (encode store_name)] ;;
  Return tt.

Definition __contains__ (self : t) (block_id : string) : Prog bool :=
  r <- _libexec "block_manager_contains"
         [c_void_p (pointer self);
          c_char_p (encode block_id);
          byref (c_bool false)] ;;
  Return (out_bool r).

Definition get (self : t) (block_ids : list string) : Prog _BlockIterator.t :=
  _GetBlockIterator.__init__ (pointer self) block_ids.

Definition branch (self : t) (tip : string) : Prog _BlockIterator.t :=
  _BranchIterator.__init__ (pointer self) tip.

Definition branch_diff (self : t) (tip exclude : string)
  : Prog _BlockIterator.t :=
  _BranchDiffIterator.__init__ (pointer self) tip exclude.

End BlockManager.

(** ** The conditions by code

    The table the binding is documented to follow: no condition for
    [Success], otherwise the exception the code stands for.  [_exec] is
    compared with it below. *)
Definition condition_for (code : Z) : option PyExc :=
  match code with
  | 0 => None
  | 0x01 => Some (TypeError "Provided null pointer(s)")
  | 0x02 => Some (MissingPredecessor "Missing predecessor")
  | 0x03 => Some (MissingPredecessorInBranch "Missing predecessor")
  | 0x04 => Some (MissingInput "Missing input to put method")
  | 0x05 => Some (UnknownBlock "Block was unknown")
  | 0x06 => Some (TypeError "Invalid block store name provided")
  | 0x11 => Some StopIteration
  | _ => Some (Exception ("There was an unknown error: " ++ format_int code))
  end.

(** The error kinds of the specification's taxonomy, and the kind each
    nonzero code other than the end-of-iteration signal belongs to. *)
Inductive ErrorKind : Type :=
| KMissingPredecessor
| KMissingPredecessorInBranch
| KMissingInput
| KUnknownBlock
| KInvalidInputString
| KInternal.

Definition kind_of (code : Z) : ErrorKind :=
  match code with
  | 0x02 => KMissingPredecessor
  | 0x03 => KMissingPredecessorInBranch
  | 0x04 => KMissingInput
  | 0x05 => KUnknownBlock
  | 0x06 => KInvalidInputString
  | _ => KInternal
  end.

(** ** The engine behind the binding *)

(** Modelled from the spec: the native engine ([block_manager_put],
    [block_manager_contains]) is not part of the Python module.  What follows
    is the specification's data model (section 3) and its [put] and
    [contains] (section 4.1). *)

(** Modelled from the spec: a Block contains its own id and its predecessor's
    id, [None] being the sentinel of a genesis block. *)
Class BlockRecord (Block : Type) : Type := {
  block_id : Block -> string;
  previous_block_id : Block -> option string
}.

(** Modelled from the spec: the Pool maps a block id to the block and its pin
    count; the registry holds the named stores in registration order. *)
Record Engine (Block : Type) : Type := {
  pool : gmap string (Block * nat);
  stores : list (string * gmap string Block)
}.
Arguments pool {Block} e.
Arguments stores {Block} e.

(** Modelled from the spec: an id resolves when the Pool or any registered
    Store holds it. *)
Definition resolves {Block} (e : Engine Block) (id : string) : bool :=
  bool_decide (is_Some (pool e !! id))
  || existsb (fun st => bool_decide (is_Some (st.2 !! id))) (stores e).

(** Modelled from the spec: [contains(id)]. *)
Definition engine_contains {Block} (e : Engine Block) (id : string) : bool :=
  resolves e id.

(** Modelled from the spec: each block after the first names the block just
    before it as its predecessor. *)
Fixpoint contiguous `{BlockRecord Block} (prev : Block) (rest : list Block)
  : bool :=
  match rest with
  | [] => true
  | b :: rest' =>
      bool_decide (previous_block_id b = Some (block_id prev))
      && contiguous b rest'
  end.

(** Modelled from the spec: all blocks of the branch enter the Pool, each
    with pin count zero. *)
Definition insert_branch `{BlockRecord Block} (branch : list Block)
    (p : gmap string (Block * nat)) : gmap string (Block * nat) :=
  foldl (fun p b => <[block_id b := (b, 0%nat)]> p) p branch.

(** Modelled from the spec: [put(branch)].  The result is the code of the
    failure ([ErrorCode] names the kinds) or the engine with the branch
    inserted; the checks come before any change. *)
Definition engine_put `{BlockRecord Block} (e : Engine Block)
    (branch : list Block) : Z + Engine Block :=
  match branch with
  | [] => inl ErrorCode.MissingInput
  | first :: rest =>
      if negb (match previous_block_id first with
               | None => true
               | Some p => resolves e p
               end)
      then inl ErrorCode.MissingPredecessor
      else if negb (contiguous first rest)
      then inl ErrorCode.MissingPredecessorInBranch
      else inr {| pool := insert_branch branch (pool e); stores := stores e |}
  end.

(** A reply that carries a code and leaves the by-reference arguments as
    they were created. *)
Definition reply (code : Z) : NativeReply :=
  {| res := code; out_ptr := NULL; out_bool := false;
     out_vec := {| vec_ptr := NULL; vec_len := 0; vec_cap := 0 |} |}.

(** Modelled from the spec: the blocks arrive as serialized payloads; the
    engine reads [block_bytes_len] bytes of each entry and parses them. *)
Fixpoint parse_entries `{Codec Block} (items : list (option _PutEntry.t))
  : option (list Block) :=
  match items with
  | [] => Some []
  | None :: _ => None
  | Some entry :: items' =>
      match ParseFromString
              (take (Z.to_nat (_PutEntry.block_bytes_len entry))
                    (_PutEntry.block_bytes entry)),
            parse_entries items' with
      | Some b, Some bs => Some (b :: bs)
      | _, _ => None
      end
  end.

(** Modelled from the spec: the native library whose [block_manager_put] and
    [block_manager_contains] are the engine's [put] and [contains]; a failed
    [put] returns the code of its kind, a payload that is no Block the
    internal [Error].  Every other native function is left to [other]. *)
Definition engine_native `{Codec Block} `{BlockRecord Block}
    (other : Native (Engine Block)) : Native (Engine Block) :=
  fun library name args e =>
    match library, args with
    | LIBRARY, [c_void_p _; c_put_entry_array items; c_size_t n] =>
        if String.eqb name "block_manager_put" then
          match parse_entries (take (Z.to_nat n) items) with
          | None => (reply ErrorCode.Error, e)
          | Some branch =>
              match engine_put e branch with
              | inl code => (reply code, e)
              | inr e' => (reply ErrorCode.Success, e')
              end
          end
        else other library name args e
    | LIBRARY, [c_void_p _; c_char_p id; byref (c_bool _)] =>
        if String.eqb name "block_manager_contains" then
          ({| res := ErrorCode.Success; out_ptr := NULL;
              out_bool := engine_contains e (string_of_list_byte id);
              out_vec := out_vec (reply 0) |}, e)
        else other library name args e
    | _, _ => other library name args e
    end.

(** ** Small instances to run the definitions on *)

(** A native library that answers the calls it receives from a script, one
    reply per call, and with [Error] once the script is used up. *)
Definition scripted : Native (list NativeReply) :=
  fun _ _ _ script =>
    match script with
    | r :: script' => (r, script')
    | [] => (reply ErrorCode.Error, [])
    end.

(** A reply to [_next] that hands back a vector of [n] bytes at [p]. *)
Definition reply_vec (code p n : Z) : NativeReply :=
  {| res := code; out_ptr := NULL; out_bool := false;
     out_vec := {| vec_ptr := p; vec_len := n; vec_cap := n |} |}.

(** Blocks that are their own payload: the id is the payload read as text,
    the predecessor's id what follows its first character. *)
#[local] Instance toy_codec : Codec PyBytes :=
  {| SerializeToString := fun b => b; ParseFromString := fun p => Some p |}.

#[local] Instance toy_blocks : BlockRecord PyBytes :=
  {| block_id := string_of_list_byte;
     previous_block_id := fun b =>
       match b with
       | _ :: (_ :: _) as t => Some (string_of_list_byte t)
       | _ => None
       end |}.

(** A memory in which every byte of a vector reads [a]. *)
#[local] Instance toy_ffi : Ffi :=
  {| prepare_vec_result := {| vec_ptr := NULL; vec_len := 0; vec_cap := 0 |};
     from_rust_vec := fun v => repeat "a"%byte (Z.to_nat (vec_len v)) |}.

Definition empty_engine : Engine PyBytes := {| pool := ∅; stores := [] |}.

Definition no_other : Native (Engine PyBytes) :=
  fun _ _ _ e => (reply ErrorCode.Error, e).

Definition self0 : BlockManager.t := BlockManager.mk 1.

(** A [get] cursor whose native pointer is 1, and one whose pointer is NULL. *)
Definition cursor0 : _BlockIterator.t :=
  _BlockIterator.mk _GetBlockIterator.name 1.

Definition null_cursor : _BlockIterator.t :=
  _BlockIterator.mk _GetBlockIterator.name NULL.

(** ** Statements about a wrapper *)

(** A wrapper follows the code of its native call [c]: it performs that call
    and no other, stops in the state the call leaves, returns normally exactly
    when the call returns [Success], and raises the condition of the code
    otherwise. *)
Definition raises_by_code {A} (p : Prog A) (c : NativeCall) : Prop :=
  forall S (native : Native S) (s : S),
    let r := (native c.1.1 c.1.2 c.2 s).1 in
    let o := run native p s in
    calls o = [c]
    /\ final o = (native c.1.1 c.1.2 c.2 s).2
    /\ (returns_normally (result o) <-> res r = ErrorCode.Success)
    /\ (forall e, condition_for (res r) = Some e -> result o = Raised e).

(** The native call of [__next__] on the cursor [self]. *)
Definition next_call `{Ffi} (self : _BlockIterator.t) : NativeCall :=
  (LIBRARY, _BlockIterator.name self ++ "_next",
   [c_void_p (_BlockIterator._c_iter_ptr self);
    byref (c_void_p (vec_ptr prepare_vec_result));
    byref (c_size_t (vec_len prepare_vec_result));
    byref (c_size_t (vec_cap prepare_vec_result))]).

(** What [__next__] makes of the reply [r] of its native call. *)
Definition next_result `{Ffi} `{Codec Block} (r : NativeReply)
  : PyResult Block :=
  match condition_for (res r) with
  | Some e => Raised e
  | None =>
      if is_null (vec_ptr (out_vec r)) then Raised StopIteration
      else match ParseFromString (from_rust_vec (out_vec r)) with
           | Some block => Returned block
           | None => Raised DecodeError
           end
  end.

(** The exception class [_exec] surfaces a code as, read off a run of [_exec]
    against a native function that returns the code. *)
Definition surfaced_class (code : Z) : option ExcClass :=
  match result (run scripted (_exec LIBRARY "" []) [reply code]) with
  | Raised e => Some (exc_class e)
  | Returned _ => None
  end.

(** Every error kind has a class of its own: two codes of different kinds
    never surface as the same class. *)
Definition tagged_by_kind : Prop :=
  forall c1 c2 : Z,
    c1 <> ErrorCode.Success -> c2 <> ErrorCode.Success ->
    c1 <> ErrorCode.StopIteration -> c2 <> ErrorCode.StopIteration ->
    kind_of c1 <> kind_of c2 ->
    surfaced_class c1 <> surfaced_class c2.

(** The state after [n] further next-element calls on [self]. *)
Fixpoint after_nexts `{Ffi} `{Codec Block} {S} (native : Native S)
    (self : _BlockIterator.t) (n : nat) (s : S) : S :=
  match n with
  | O => s
  | Datatypes.S n' =>
      after_nexts native self n'
        (final (run native (_BlockIterator.__next__ self) s))
  end.

(** Once a next-element call has raised, no later one yields a block. *)
Definition failure_is_permanent `{Ffi} `{Codec Block} {S}
    (native : Native S) (self : _BlockIterator.t) : Prop :=
  forall (s : S) (e : PyExc) (n : nat),
    let o := run native (_BlockIterator.__next__ self) s in
    result o = Raised e ->
    ~ returns_normally
        (result (run native (_BlockIterator.__next__ self)
                   (after_nexts native self n (final o)))).

(** A codec for the same blocks that takes no empty payload for a block. *)
Definition nonempty_codec : Codec PyBytes :=
  {| SerializeToString := fun b => b;
     ParseFromString := fun p => match p with [] => None | _ => Some p end |}.

(** [next(ctor)]: build a cursor and ask it for its first block. *)
Definition first_of `{Ffi} `{Codec Block} (ctor : Prog _BlockIterator.t)
  : Prog Block :=
  it <- ctor ;; _BlockIterator.__next__ it.

(** The native call a cursor constructor of class [name] makes. *)
Definition new_call (name : string) (args : list CArg) : NativeCall :=
  (LIBRARY, name ++ "_new", args).

(** What [first_of] comes to for a constructor that makes the call [c] and
    builds its cursor under the class name [name]: the constructor's failure;
    or the end of the sequence, with no second call, when the native side
    left the pointer NULL; or the next-element call on the pointer it wrote. *)
Definition first_outcome `{Ffi} `{Codec Block} {S} (native : Native S)
    (name : string) (c : NativeCall) (s : S) : Outcome S Block :=
  let r := (native c.1.1 c.1.2 c.2 s).1 in
  let s1 := (native c.1.1 c.1.2 c.2 s).2 in
  match condition_for (res r) with
  | Some e => {| result := Raised e; final := s1; calls := [c] |}
  | None =>
      if is_null (out_ptr r)
      then {| result := Raised StopIteration; final := s1; calls := [c] |}
      else
        let n := next_call (_BlockIterator.mk name (out_ptr r)) in
        {| result := next_result (native n.1.1 n.1.2 n.2 s1).1;
           final := (native n.1.1 n.1.2 n.2 s1).2;
           calls := [c; n] |}
  end.

(** The classes [_exec] raises. *)
Definition exec_classes : list ExcClass :=
  [MissingPredecessor_cls; MissingPredecessorInBranch_cls; MissingInput_cls;
   UnknownBlock_cls; TypeError_cls; StopIteration_cls; Exception_cls].

(** A wrapper raises nothing but what [_exec] raises. *)
Definition raises_only_exec_classes {A} (p : Prog A) : Prop :=
  forall S (native : Native S) (s : S) (e : PyExc),
    result (run native p s) = Raised e -> In (exc_class e) exec_classes.

(** Case analysis on the binary digits of a positive code, as deep as the
    table of codes goes. *)
Ltac split_code p n :=
  lazymatch n with
  | O => reflexivity
  | Datatypes.S ?n' =>
      first [ reflexivity | destruct p as [p|p|]; split_code p n' ]
  end.

(** ** The loops that fill the argument arrays *)

Lemma bind_Return {A B} (a : A) (f : A -> Prog B) : bind (Return a) f = f a.
Proof. reflexivity. Qed.

Lemma for_each_setitem_from {A X} (f : X -> A) (xs : list X) :
  forall (k : nat) (arr : list (option A)),
    length arr = (k + length xs)%nat ->
    for_each (zip (seq k (length xs)) xs) arr
      (fun arr '(i, x) => setitem arr i (f x))
    = Return (take k arr ++ map (fun x => Some (f x)) xs)%list.
Proof.
  induction xs as [|x xs IH]; intros k arr Hlen; simpl in *.
  - rewrite app_nil_r, take_ge by lia. reflexivity.
  - unfold setitem at 1. destruct (decide (k < length arr)%nat) as [Hk|Hk]; [|lia].
    rewrite bind_Return, IH by (rewrite length_insert; lia).
    f_equal.
    rewrite (take_S_r _ _ (Some (f x))) by (apply list_lookup_insert_eq; lia).
    rewrite take_insert_ge by lia.
    rewrite <- app_assoc. reflexivity.
Qed.

Lemma for_each_setitem {A X} (f : X -> A) (xs : list X) :
  for_each (enumerate xs) (replicate (length xs) None)
    (fun arr '(i, x) => setitem arr i (f x))
  = Return (map (fun x => Some (f x)) xs).
Proof.
  unfold enumerate. rewrite for_each_setitem_from.
  - reflexivity.
  - rewrite length_replicate. lia.
Qed.

(** ** Running [bind] and [_exec] *)

Lemma run_bind {S A B} (native : Native S) (p : Prog A) (f : A -> Prog B)
    (s : S) :
  run native (bind p f) s =
  let o := run native p s in
  match result o with
  | Returned a =>
      let o' := run native (f a) (final o) in
      {| result := result o'; final := final o';
         calls := (calls o ++ calls o')%list |}
  | Raised e => {| result := Raised e; final := final o; calls := calls o |}
  end.
Proof.
  revert s. induction p as [a|e|l n args k IH]; intros s; simpl.
  - destruct (run native (f a) s); reflexivity.
  - reflexivity.
  - destruct (native l n args s) as [r s']. rewrite IH. simpl.
    destruct (result (run native (k r) s')); reflexivity.
Qed.

(** The chain of comparisons in [_exec] is the table [condition_for]. *)
Lemma run__exec {S} (native : Native S) library name args (s : S) :
  run native (_exec library name args) s =
  {| result := match condition_for (res (native library name args s).1) with
               | None => Returned (native library name args s).1
               | Some e => Raised e
               end;
     final := (native library name args s).2;
     calls := [(library, name, args)] |}.
Proof.
  unfold _exec. simpl. destruct (native library name args s) as [r s']. simpl.
  destruct (res r) as [|p|p].
  - reflexivity.
  - split_code p 6%nat.
  - reflexivity.
Qed.

Lemma condition_for_None (code : Z) :
  condition_for code = None <-> code = ErrorCode.Success.
Proof.
  split.
  - destruct code as [|p|p]; [reflexivity| |discriminate].
    intros Hc. exfalso. revert Hc.
    do 6 (try (destruct p as [p|p|]; try discriminate)).
  - intros ->. reflexivity.
Qed.

(** A wrapper made of one checked native call follows the code of that
    call. *)
Lemma exec_raises_by_code {A} library name args (f : NativeReply -> A) :
  raises_by_code (r <- _exec library name args ;; Return (f r))
                 (library, name, args).
Proof.
  intros S native s. cbn [fst snd]. rewrite run_bind, run__exec. cbn [result].
  destruct (condition_for (res (native library name args s).1)) as [e|] eqn:Hc;
    cbn.
  - repeat split; try tauto.
    + intros Hs. apply condition_for_None in Hs. congruence.
    + intros e' [= ->]. reflexivity.
  - repeat split; try discriminate.
    + intros _. apply condition_for_None. exact Hc.
Qed.

(** [__next__] on a cursor that is not NULL performs its native call, stops
    in the state that call leaves, and returns what [next_result] makes of
    the reply. *)
Lemma run___next__ `{Ffi} `{Codec Block} {S} (native : Native S)
    (self : _BlockIterator.t) (s : S) :
  is_null (_BlockIterator._c_iter_ptr self) = false ->
  let c := next_call self in
  run native (_BlockIterator.__next__ self) s =
  {| result := next_result (native c.1.1 c.1.2 c.2 s).1;
     final := (native c.1.1 c.1.2 c.2 s).2;
     calls := [c] |}.
Proof.
  intros Hp. unfold _BlockIterator.__next__, _libexec. rewrite Hp.
  rewrite run_bind, run__exec. unfold next_result, next_call.
  cbn [result final calls fst snd].
  destruct (condition_for _) as [e|]; [reflexivity|].
  destruct (is_null (vec_ptr _)); [reflexivity|].
  destruct (ParseFromString _); reflexivity.
Qed.

Lemma run___next___null `{Ffi} `{Codec Block} {S} (native : Native S)
    (self : _BlockIterator.t) (s : S) :
  is_null (_BlockIterator._c_iter_ptr self) = true ->
  run native (_BlockIterator.__next__ self) s =
  {| result := Raised StopIteration; final := s; calls := [] |}.
Proof.
  intros Hp. unfold _BlockIterator.__next__. rewrite Hp. reflexivity.
Qed.

(** [put] marshals the whole branch and then makes its one native call. *)
Lemma put_unfold `{Codec Block} (self : BlockManager.t) (branch : list Block) :
  BlockManager.put self branch =
  (r <- _libexec "block_manager_put"
          [c_void_p (BlockManager.pointer self);
           c_put_entry_array
             (map (fun b => Some (_PutEntry.new (SerializeToString b))) branch);
           c_size_t (len branch)] ;;
   Return tt).
Proof.
  unfold BlockManager.put.
  rewrite (for_each_setitem (fun b => _PutEntry.new (SerializeToString b))).
  reflexivity.
Qed.

Lemma get_unfold (self : BlockManager.t) (block_ids : list string) :
  BlockManager.get self block_ids =
  (r <- _libexec "block_manager_get_iterator_new"
          [c_void_p (BlockManager.pointer self);
           c_char_p_array (map (fun id => Some (encode id)) block_ids);
           c_size_t (len block_ids);
           byref (c_void_p NULL)] ;;
   Return (constructed _GetBlockIterator.name r)).
Proof.
  unfold BlockManager.get, _GetBlockIterator.__init__.
  rewrite (for_each_setitem encode).
  reflexivity.
Qed.

(** ** Exceptions by code (C1) *)

(** C1, as stated, fails for the next-element operation: the native call of
    [__next__] returns [Success] with a NULL result vector, and the wrapper
    raises [StopIteration] instead of returning normally. *)
Lemma next_success_with_null_vector_raises :
  ~ raises_by_code (_BlockIterator.__next__ (Block := PyBytes) cursor0)
                   (next_call cursor0).
Proof.
  intros Hc.
  destruct (Hc _ scripted [reply ErrorCode.Success]) as (_ & _ & Hiff & _).
  cbn in Hiff. apply Hiff. reflexivity.
Qed.

(** C1, amended.  [add_store], [put], [ref_block], [unref_block], [persist],
    [__contains__] and the three iterator constructors each perform exactly
    one native call, return normally if and only if that call returns
    [Success], and otherwise raise, at that call, the condition of the code.
    [__next__] raises [StopIteration] without a native call on a NULL cursor;
    on any other cursor it performs exactly one native call, raises the
    condition of a nonzero code, and on [Success] raises [StopIteration] for a
    NULL vector and otherwise gives the outcome of parsing the payload.  The
    conditions are: [TypeError] for 0x01 and 0x06, [MissingPredecessor] for
    0x02, [MissingPredecessorInBranch] for 0x03, [MissingInput] for 0x04,
    [UnknownBlock] for 0x05, [StopIteration] for 0x11, [Exception] for every
    other nonzero code. *)
Theorem conditions_by_code `{Ffi} `{Codec Block}
    (self : BlockManager.t) (name block_id store_name tip exclude : string)
    (block_store : Z) (branch : list Block) (block_ids : list string)
    (it : _BlockIterator.t) :
  raises_by_code (BlockManager.add_store self name block_store)
    (PY_LIBRARY, "block_manager_add_store",
     [c_void_p (BlockManager.pointer self); c_char_p (encode name);
      py_object block_store])
  /\ raises_by_code (BlockManager.put self branch)
       (LIBRARY, "block_manager_put",
        [c_void_p (BlockManager.pointer self);
         c_put_entry_array
           (map (fun b => Some (_PutEntry.new (SerializeToString b))) branch);
         c_size_t (len branch)])
  /\ raises_by_code (BlockManager.ref_block self block_id)
       (LIBRARY, "block_manager_ref_block",
        [c_void_p (BlockManager.pointer self); c_char_p (encode block_id)])
  /\ raises_by_code (BlockManager.unref_block self block_id)
       (LIBRARY, "block_manager_unref_block",
        [c_void_p (BlockManager.pointer self); c_char_p (encode block_id)])
  /\ raises_by_code (BlockManager.persist self block_id store_name)
       (LIBRARY, "block_manager_persist",
        [c_void_p (BlockManager.pointer self); c_char_p (encode block_id);
         c_char_p (encode store_name)])
  /\ raises_by_code (BlockManager.__contains__ self block_id)
       (LIBRARY, "block_manager_contains",
        [c_void_p (BlockManager.pointer self); c_char_p (encode block_id);
         byref (c_bool false)])
  /\ raises_by_code (BlockManager.get self block_ids)
       (LIBRARY, "block_manager_get_iterator_new",
        [c_void_p (BlockManager.pointer self);
         c_char_p_array (map (fun id => Some (encode id)) block_ids);
         c_size_t (len block_ids); byref (c_void_p NULL)])
  /\ raises_by_code (BlockManager.branch self tip)
       (LIBRARY, "block_manager_branch_iterator_new",
        [c_void_p (BlockManager.pointer self); c_char_p (encode tip);
         byref (c_void_p NULL)])
  /\ raises_by_code (BlockManager.branch_diff self tip exclude)
       (LIBRARY, "block_manager_branch_diff_iterator_new",
        [c_void_p (BlockManager.pointer self); c_char_p (encode tip);
         c_char_p (encode exclude); byref (c_void_p NULL)])
  /\ (forall S (native : Native S) (s : S),
        run native (_BlockIterator.__next__ it) s =
        if is_null (_BlockIterator._c_iter_ptr it)
        then {| result := Raised StopIteration; final := s; calls := [] |}
        else
          let c := next_call it in
          {| result := next_result (native c.1.1 c.1.2 c.2 s).1;
             final := (native c.1.1 c.1.2 c.2 s).2;
             calls := [c] |})
  /\ condition_for 0x01 = Some (TypeError "Provided null pointer(s)")
  /\ condition_for 0x02 = Some (MissingPredecessor "Missing predecessor")
  /\ condition_for 0x03
     = Some (MissingPredecessorInBranch "Missing predecessor")
  /\ condition_for 0x04 = Some (MissingInput "Missing input to put method")
  /\ condition_for 0x05 = Some (UnknownBlock "Block was unknown")
  /\ condition_for 0x06 = Some (TypeError "Invalid block store name provided")
  /\ condition_for 0x11 = Some StopIteration
  /\ (forall code : Z,
        ~ In code [0; 0x01; 0x02; 0x03; 0x04; 0x05; 0x06; 0x11] ->
        condition_for code
        = Some (Exception ("There was an unknown error: " ++ format_int code))).
Proof.
  repeat match goal with |- _ /\ _ => split end; try reflexivity.
  - apply exec_raises_by_code.
  - rewrite put_unfold. apply exec_raises_by_code.
  - apply exec_raises_by_code.
  - apply exec_raises_by_code.
  - apply exec_raises_by_code.
  - apply exec_raises_by_code.
  - rewrite get_unfold. apply exec_raises_by_code.
  - apply exec_raises_by_code.
  - apply exec_raises_by_code.
  - intros S native s.
    destruct (is_null (_BlockIterator._c_iter_ptr it)) eqn:Hp.
    + apply run___next___null. exact Hp.
    + apply run___next__. exact Hp.
  - intros code Hn. destruct code as [|p|p]; [|  |reflexivity].
    + exfalso. apply Hn. left. reflexivity.
    + do 6 (try (destruct p as [p|p|]; try reflexivity));
        exfalso; apply Hn; cbn; tauto.
Qed.

Lemma conditions_by_code_witness :
  condition_for 0x07 = Some (Exception "There was an unknown error: 7").
Proof.
  destruct (conditions_by_code (Block := PyBytes) self0 "" "" "" "" "" 0 [] []
              cursor0) as (_&_&_&_&_&_&_&_&_&_&_&_&_&_&_&_&_&Hother).
  apply (Hother 0x07). cbn. intros Hin.
  repeat (destruct Hin as [Hin|Hin]; [discriminate Hin|]). exact Hin.
Defined.

(** ** Error kinds and exception classes (C4) *)

Lemma surfaced_class_condition (code : Z) :
  surfaced_class code = exc_class <$> condition_for code.
Proof.
  unfold surfaced_class. rewrite run__exec. cbn [result scripted fst res reply].
  destruct (condition_for code); reflexivity.
Qed.

(** C4, as stated, fails: a store-name failure ([InvalidInputString], 0x06)
    and a null-pointer failure (0x01), which is not of that kind, surface as
    the same class, [TypeError]. *)
Lemma invalid_input_string_shares_TypeError : ~ tagged_by_kind.
Proof.
  intros Ht.
  apply (Ht ErrorCode.InvalidInputString ErrorCode.NullPointerProvided);
    try discriminate.
  reflexivity.
Qed.

(** C4, amended.  Whatever the library, function and arguments, [_exec]
    surfaces a code as the class [surfaced_class] gives.
    [MissingPredecessor], [MissingPredecessorInBranch], [MissingInput] and
    [UnknownBlock] each surface as a class of their own, shared with no other
    code.  [InvalidInputString] surfaces as [TypeError], the class a null
    pointer surfaces as too; the two differ in their message only.  Every
    code outside the table surfaces as the generic [Exception]. *)
Theorem kinds_by_class :
  (forall S (native : Native S) library name args (s : S),
     match result (run native (_exec library name args) s) with
     | Raised e => Some (exc_class e)
     | Returned _ => None
     end = surfaced_class (res (native library name args s).1))
  /\ surfaced_class ErrorCode.MissingPredecessor = Some MissingPredecessor_cls
  /\ surfaced_class ErrorCode.MissingPredecessorInBranch
     = Some MissingPredecessorInBranch_cls
  /\ surfaced_class ErrorCode.MissingInput = Some MissingInput_cls
  /\ surfaced_class ErrorCode.UnknownBlock = Some UnknownBlock_cls
  /\ (forall c1 c2 : Z,
        In c1 [ErrorCode.MissingPredecessor;
               ErrorCode.MissingPredecessorInBranch;
               ErrorCode.MissingInput; ErrorCode.UnknownBlock] ->
        c2 <> c1 -> surfaced_class c1 <> surfaced_class c2)
  /\ surfaced_class ErrorCode.InvalidInputString = Some TypeError_cls
  /\ surfaced_class ErrorCode.NullPointerProvided = Some TypeError_cls
  /\ condition_for ErrorCode.InvalidInputString
     <> condition_for ErrorCode.NullPointerProvided
  /\ (forall code : Z,
        ~ In code [0; 0x01; 0x02; 0x03; 0x04; 0x05; 0x06; 0x11] ->
        surfaced_class code = Some Exception_cls).
Proof.
  repeat match goal with |- _ /\ _ => split end;
    try reflexivity; try discriminate.
  - intros S native library name args s.
    rewrite run__exec, surfaced_class_condition. cbn [result].
    destruct (condition_for _); reflexivity.
  - intros c1 c2 Hin Hne. rewrite !surfaced_class_condition.
    destruct c2 as [|p|p].
    + cbn in Hin. intuition (subst; discriminate).
    + do 6 (try (destruct p as [p|p|]));
        cbn in Hin; intuition (subst; first [discriminate | congruence]).
    + cbn in Hin. intuition (subst; discriminate).
  - intros code Hn. rewrite surfaced_class_condition.
    destruct code as [|p|p]; [| |reflexivity].
    + exfalso. apply Hn. left. reflexivity.
    + do 6 (try (destruct p as [p|p|]; try reflexivity));
        exfalso; apply Hn; cbn; tauto.
Qed.

Lemma kinds_by_class_witness :
  surfaced_class ErrorCode.MissingInput
  <> surfaced_class ErrorCode.InvalidInputString.
Proof.
  destruct kinds_by_class as (_&_&_&_&_&Hown&_).
  apply Hown.
  - cbn. tauto.
  - discriminate.
Defined.

(** ** Payloads across the boundary (C5) *)

(** C5.  [put] on a branch of n blocks makes one native call whose arguments
    are the handle, an array of n entries and the count n; the i-th entry
    holds the serialization of the i-th block and the length of that
    serialization, and nothing else.  A block that [__next__] returns is the
    parse of the payload the native call handed back. *)
Theorem blocks_cross_as_payloads `{Ffi} `{Codec Block} :
  (forall S (native : Native S) (s : S) (self : BlockManager.t)
          (branch : list Block),
     exists items : list (option _PutEntry.t),
       calls (run native (BlockManager.put self branch) s)
       = [(LIBRARY, "block_manager_put",
           [c_void_p (BlockManager.pointer self);
            c_put_entry_array items;
            c_size_t (Z.of_nat (length branch))])]
       /\ length items = length branch
       /\ forall (i : nat) (b : Block),
            branch !! i = Some b ->
            items !! i
            = Some (Some {| _PutEntry.block_bytes := SerializeToString b;
                            _PutEntry.block_bytes_len :=
                              Z.of_nat (length (SerializeToString b)) |}))
  /\ (forall S (native : Native S) (s : S) (it : _BlockIterator.t)
             (b : Block),
        result (run native (_BlockIterator.__next__ it) s) = Returned b ->
        let c := next_call it in
        calls (run native (_BlockIterator.__next__ it) s) = [c]
        /\ ParseFromString
             (from_rust_vec (out_vec (native c.1.1 c.1.2 c.2 s).1))
           = Some b).
Proof.
  split.
  - intros S native s self branch.
    exists (map (fun b => Some (_PutEntry.new (SerializeToString b))) branch).
    rewrite put_unfold. unfold _libexec. rewrite run_bind, run__exec.
    cbn [result calls final]. split; [|split].
    + destruct (condition_for _); reflexivity.
    + apply length_map.
    + intros i b Hi.
      change (map ?f branch) with (f <$> branch).
      rewrite list_lookup_fmap, Hi. reflexivity.
  - intros S native s it b Hb.
    destruct (is_null (_BlockIterator._c_iter_ptr it)) eqn:Hp.
    + rewrite run___next___null in Hb by exact Hp. discriminate Hb.
    + rewrite run___next__ in * by exact Hp. cbn [result calls] in *.
      split; [reflexivity|].
      unfold next_result in Hb.
      destruct (condition_for _); [discriminate Hb|].
      destruct (is_null (vec_ptr _)); [discriminate Hb|].
      destruct (ParseFromString _) as [b'|]; [|discriminate Hb].
      congruence.
Qed.

Lemma blocks_cross_as_payloads_witness :
  ParseFromString
    (from_rust_vec
       (out_vec (scripted LIBRARY "block_manager_get_iterator_next"
                   [c_void_p 1; byref (c_void_p 0); byref (c_size_t 0);
                    byref (c_size_t 0)] [reply_vec 0 5 1]).1))
  = Some ["a"%byte].
Proof.
  destruct (blocks_cross_as_payloads (Block := PyBytes)) as [_ Hnext].
  apply (Hnext _ scripted [reply_vec 0 5 1] cursor0 ["a"%byte]).
  reflexivity.
Defined.

(** ** End of data (C6) *)

(** C6.  On a cursor that is not NULL, when the native call of [__next__]
    returns the [StopIteration] code, or returns [Success] and leaves the
    result vector NULL, [__next__] raises Python's [StopIteration]. *)
Theorem end_of_data_is_StopIteration `{Ffi} `{Codec Block} {S}
    (native : Native S) (s : S) (it : _BlockIterator.t) :
  is_null (_BlockIterator._c_iter_ptr it) = false ->
  let c := next_call it in
  let r := (native c.1.1 c.1.2 c.2 s).1 in
  res r = ErrorCode.StopIteration
  \/ (res r = ErrorCode.Success /\ vec_ptr (out_vec r) = NULL) ->
  result (run native (_BlockIterator.__next__ it) s) = Raised StopIteration.
Proof.
  intros Hp c r Hend. subst r c.
  rewrite run___next__ by exact Hp. cbn [result]. unfold next_result.
  destruct Hend as [Hstop|[Hok Hnull]].
  - rewrite Hstop. reflexivity.
  - rewrite Hok, Hnull. reflexivity.
Qed.

Lemma end_of_data_is_StopIteration_witness :
  result (run scripted (_BlockIterator.__next__ (Block := PyBytes) cursor0)
            [reply ErrorCode.StopIteration])
  = Raised StopIteration
  /\ result (run scripted (_BlockIterator.__next__ (Block := PyBytes) cursor0)
               [reply ErrorCode.Success])
     = Raised StopIteration.
Proof.
  split.
  - apply (end_of_data_is_StopIteration (Block := PyBytes)).
    + reflexivity.
    + left. reflexivity.
  - apply (end_of_data_is_StopIteration (Block := PyBytes)).
    + reflexivity.
    + right. split; reflexivity.
Defined.

(** ** After a failure (C7) *)

(** C7, as stated, fails: the first next-element call raises (the native call
    returns the code 7), and the call after it on the same iterator returns a
    block, because the native cursor hands one back. *)
Lemma failed_iterator_yields_again :
  ~ failure_is_permanent (Block := PyBytes) scripted cursor0.
Proof.
  intros Hperm.
  apply (Hperm [reply ErrorCode.Error; reply_vec ErrorCode.Success 5 1]
               (Exception "There was an unknown error: 7") 0%nat).
  - reflexivity.
  - exact I.
Qed.

(** C7, amended.  The binding keeps no record of a failure.  On a NULL
    cursor every next-element call, in whatever state, raises
    [StopIteration].  On any other cursor a next-element call, whatever the
    calls before it raised, returns a block exactly when its own native call
    returns [Success] with a vector that is not NULL and whose payload
    parses to that block. *)
Theorem next_keeps_no_failure_state `{Ffi} `{Codec Block} {S}
    (native : Native S) (it : _BlockIterator.t) :
  (is_null (_BlockIterator._c_iter_ptr it) = true ->
   forall s : S,
     result (run native (_BlockIterator.__next__ it) s) = Raised StopIteration)
  /\ (is_null (_BlockIterator._c_iter_ptr it) = false ->
      forall (s : S) (b : Block),
        let c := next_call it in
        let r := (native c.1.1 c.1.2 c.2 s).1 in
        result (run native (_BlockIterator.__next__ it) s) = Returned b
        <-> res r = ErrorCode.Success
            /\ is_null (vec_ptr (out_vec r)) = false
            /\ ParseFromString (from_rust_vec (out_vec r)) = Some b).
Proof.
  split.
  - intros Hp s. rewrite run___next___null by exact Hp. reflexivity.
  - intros Hp s b c r. subst r c.
    rewrite run___next__ by exact Hp. cbn [result]. unfold next_result.
    destruct (condition_for _) as [e|] eqn:Hc.
    + split; [discriminate|].
      intros (Hs & _). apply condition_for_None in Hs. congruence.
    + apply condition_for_None in Hc.
      destruct (is_null (vec_ptr _)).
      * split; [discriminate|]. intros (_ & Hn & _). discriminate Hn.
      * destruct (ParseFromString _) as [b'|].
        -- split; [intros [= ->]; auto | intros (_ & _ & [= ->]); reflexivity].
        -- split; [discriminate | intros (_ & _ & Hn); discriminate Hn].
Qed.

Lemma next_keeps_no_failure_state_witness :
  result (run scripted (_BlockIterator.__next__ (Block := PyBytes) null_cursor)
            [reply_vec ErrorCode.Success 5 1])
  = Raised StopIteration
  /\ result (run scripted (_BlockIterator.__next__ (Block := PyBytes) cursor0)
               [reply_vec ErrorCode.Success 5 1])
     = Returned ["a"%byte].
Proof.
  split.
  - apply (next_keeps_no_failure_state (Block := PyBytes) scripted null_cursor).
    reflexivity.
  - apply (next_keeps_no_failure_state (Block := PyBytes) scripted cursor0).
    + reflexivity.
    + repeat split.
Defined.

(** ** One pass (C8) *)

(** C8.  [__iter__] returns the cursor object it is called on, however often
    it is applied, so a next-element call on what it returns is the
    next-element call on the cursor itself, from the state the native cursor
    is in: iteration goes on, it does not start again. *)
Theorem iter_is_self `{Ffi} `{Codec Block} (it : _BlockIterator.t) :
  _BlockIterator.__iter__ it = it
  /\ _BlockIterator.__iter__ (_BlockIterator.__iter__ it)
     = _BlockIterator.__iter__ it
  /\ forall S (native : Native S) (s : S),
       run native (_BlockIterator.__next__ (_BlockIterator.__iter__ it)) s
       = run native (_BlockIterator.__next__ it) s.
Proof. repeat split. Qed.

(** A cursor that has handed out its first block hands out the second one
    after [__iter__], not the first one again. *)
Example iter_goes_on :
  let script :=
    [reply_vec ErrorCode.Success 5 1; reply_vec ErrorCode.Success 6 2] in
  let first := run scripted (_BlockIterator.__next__ (Block := PyBytes) cursor0)
                 script in
  result first = Returned ["a"%byte]
  /\ result (run scripted
               (_BlockIterator.__next__ (Block := PyBytes)
                  (_BlockIterator.__iter__ cursor0))
               (final first))
     = Returned ["a"%byte; "a"%byte].
Proof. split; reflexivity. Qed.

(** ** Dropping the cursor (C10) *)

(** C10.  [__del__] makes the native drop call of its class exactly when the
    cursor pointer is not NULL, and no native call otherwise; an object whose
    native construction left the pointer NULL is therefore never dropped
    natively.  [__next__] on a NULL cursor raises [StopIteration] with no
    native call and no change of state. *)
Theorem drop_iff_cursor `{Ffi} `{Codec Block} {S} (native : Native S) (s : S)
    (it : _BlockIterator.t) :
  (calls (run native (_BlockIterator.__del__ it) s)
   = if is_null (_BlockIterator._c_iter_ptr it) then []
     else [(LIBRARY, _BlockIterator.name it ++ "_drop",
            [c_void_p (_BlockIterator._c_iter_ptr it)])])
  /\ (calls (run native (_BlockIterator.__del__ it) s) <> []
      <-> _BlockIterator._c_iter_ptr it <> NULL)
  /\ (forall (name : string) (r : NativeReply),
        out_ptr r = NULL ->
        calls (run native (_BlockIterator.__del__ (constructed name r)) s) = [])
  /\ (_BlockIterator._c_iter_ptr it = NULL ->
      run native (_BlockIterator.__next__ it) s
      = {| result := Raised StopIteration; final := s; calls := [] |}).
Proof.
  assert (Hdel : forall it' : _BlockIterator.t,
    calls (run native (_BlockIterator.__del__ it') s)
    = if is_null (_BlockIterator._c_iter_ptr it') then []
      else [(LIBRARY, _BlockIterator.name it' ++ "_drop",
             [c_void_p (_BlockIterator._c_iter_ptr it')])]).
  { intros it'. unfold _BlockIterator.__del__, _libexec.
    destruct (is_null _); [reflexivity|].
    cbn [negb]. rewrite run_bind, run__exec. cbn [result calls].
    destruct (condition_for _); reflexivity. }
  repeat split.
  - apply Hdel.
  - rewrite Hdel. unfold is_null.
    destruct (Z.eqb_spec (_BlockIterator._c_iter_ptr it) NULL); congruence.
  - rewrite Hdel. unfold is_null.
    destruct (Z.eqb_spec (_BlockIterator._c_iter_ptr it) NULL);
      [congruence | discriminate].
  - intros name r Hr. rewrite Hdel. unfold constructed, is_null. cbn.
    rewrite Hr. reflexivity.
  - intros Hp. apply run___next___null. unfold is_null. rewrite Hp.
    reflexivity.
Qed.

Lemma drop_iff_cursor_witness :
  calls (run scripted (_BlockIterator.__del__
                         (constructed _BranchIterator.name
                            (reply ErrorCode.UnknownBlock))) []) = []
  /\ run scripted (_BlockIterator.__next__ (Block := PyBytes) null_cursor)
       [reply_vec ErrorCode.Success 5 1]
     = {| result := Raised StopIteration;
          final := [reply_vec ErrorCode.Success 5 1]; calls := [] |}.
Proof.
  split.
  - apply (drop_iff_cursor (Block := PyBytes) scripted [] cursor0).
    reflexivity.
  - apply (drop_iff_cursor (Block := PyBytes) scripted _ null_cursor).
    reflexivity.
Defined.

(** ** The engine's [put] and [contains] behind the binding (C2, C3, C9) *)

Lemma insert_branch_keeps `{BlockRecord Block} (branch : list Block) :
  forall (p : gmap string (Block * nat)) (id : string),
    is_Some (p !! id) -> is_Some (insert_branch branch p !! id).
Proof.
  induction branch as [|b branch IH]; intros p id Hid; cbn.
  - exact Hid.
  - apply IH. destruct (decide (block_id b = id)) as [->|Hne].
    + rewrite lookup_insert_eq. eauto.
    + rewrite lookup_insert_ne by exact Hne. exact Hid.
Qed.

Lemma insert_branch_holds `{BlockRecord Block} (branch : list Block) :
  forall (p : gmap string (Block * nat)) (b : Block),
    In b branch -> is_Some (insert_branch branch p !! block_id b).
Proof.
  induction branch as [|b' branch IH]; intros p b Hin; cbn.
  - destruct Hin.
  - destruct Hin as [->|Hin].
    + apply insert_branch_keeps. rewrite lookup_insert_eq. eauto.
    + apply IH. exact Hin.
Qed.

Lemma resolves_spec {Block} (e : Engine Block) (id : string) :
  resolves e id = true
  <-> is_Some (pool e !! id)
      \/ exists st, In st (stores e) /\ is_Some (st.2 !! id).
Proof.
  unfold resolves. rewrite orb_true_iff, bool_decide_eq_true, existsb_exists.
  split; (intros [Hp|(st & Hin & Hst)]; [left; exact Hp | right; exists st]).
  - split; [exact Hin|]. apply bool_decide_eq_true in Hst. exact Hst.
  - split; [exact Hin|]. apply bool_decide_eq_true. exact Hst.
Qed.

Lemma engine_put_code `{BlockRecord Block} (e : Engine Block)
    (branch : list Block) (code : Z) :
  engine_put e branch = inl code -> code <> ErrorCode.Success.
Proof.
  unfold engine_put. destruct branch as [|first rest]; [intros [= <-]; discriminate|].
  destruct (negb _); [intros [= <-]; discriminate|].
  destruct (negb _); [intros [= <-]; discriminate|discriminate].
Qed.

Lemma parse_entries_serialized `{Codec Block} (branch : list Block) :
  (forall b, ParseFromString (SerializeToString b) = Some b) ->
  parse_entries
    (map (fun b => Some (_PutEntry.new (SerializeToString b))) branch)
  = Some branch.
Proof.
  intros Hrt. induction branch as [|b branch IH]; cbn; [reflexivity|].
  unfold len. rewrite Nat2Z.id, firstn_all, Hrt, IH. reflexivity.
Qed.

(** The engine's answer to the native call [put] makes. *)
Lemma engine_native_put `{Codec Block} `{BlockRecord Block}
    (other : Native (Engine Block)) (e : Engine Block) (p : Z)
    (branch : list Block) :
  (forall b, ParseFromString (SerializeToString b) = Some b) ->
  engine_native other LIBRARY "block_manager_put"
    [c_void_p p;
     c_put_entry_array
       (map (fun b => Some (_PutEntry.new (SerializeToString b))) branch);
     c_size_t (len branch)] e
  = match engine_put e branch with
    | inl code => (reply code, e)
    | inr e' => (reply ErrorCode.Success, e')
    end.
Proof.
  intros Hrt. unfold engine_native. cbn [String.eqb Ascii.eqb Bool.eqb].
  replace (Z.to_nat (len branch)) with
    (length (map (fun b => Some (_PutEntry.new (SerializeToString b))) branch))
    by (rewrite length_map; unfold len; lia).
  rewrite firstn_all, parse_entries_serialized by exact Hrt.
  reflexivity.
Qed.

(** [put] run against the engine: the engine's [put] on the branch itself. *)
Lemma run_put_engine `{Codec Block} `{BlockRecord Block}
    (other : Native (Engine Block)) (e : Engine Block) (self : BlockManager.t)
    (branch : list Block) :
  (forall b, ParseFromString (SerializeToString b) = Some b) ->
  let o := run (engine_native other) (BlockManager.put self branch) e in
  match engine_put e branch with
  | inl code =>
      (exists x, condition_for code = Some x /\ result o = Raised x)
      /\ final o = e
  | inr e' => result o = Returned tt /\ final o = e'
  end.
Proof.
  intros Hrt o. subst o. rewrite put_unfold. unfold _libexec.
  rewrite run_bind, run__exec, engine_native_put by exact Hrt.
  destruct (engine_put e branch) as [code|e'] eqn:Hput; cbn.
  - pose proof (engine_put_code _ _ _ Hput) as Hne.
    destruct (condition_for code) as [x|] eqn:Hc.
    + cbn. split; [exists x; split|]; reflexivity.
    + apply condition_for_None in Hc. contradiction.
  - split; reflexivity.
Qed.

Lemma run_contains_engine `{Codec Block} `{BlockRecord Block}
    (other : Native (Engine Block)) (e : Engine Block) (self : BlockManager.t)
    (id : string) :
  run (engine_native other) (BlockManager.__contains__ self id) e
  = {| result := Returned (resolves e id); final := e;
       calls := [(LIBRARY, "block_manager_contains",
                  [c_void_p (BlockManager.pointer self); c_char_p (encode id);
                   byref (c_bool false)])] |}.
Proof.
  unfold BlockManager.__contains__, _libexec.
  rewrite run_bind, run__exec. cbn. unfold encode, engine_contains.
  rewrite string_of_list_byte_of_string. reflexivity.
Qed.

(** C2.  Against the engine of the specification, with a codec that parses
    what it serializes: when [put] returns, [__contains__] is true for the id
    of every block of the branch; when [put] raises, the engine is in the
    state it was in before the call, so nothing of the branch has become
    visible.  A branch whose blocks are not contiguous makes [put] raise. *)
Theorem put_all_or_nothing `{Codec Block} `{BlockRecord Block}
    (other : Native (Engine Block)) (e : Engine Block) (self : BlockManager.t)
    (branch : list Block) :
  (forall b, ParseFromString (SerializeToString b) = Some b) ->
  let o := run (engine_native other) (BlockManager.put self branch) e in
  match result o with
  | Returned _ =>
      forall b, In b branch ->
        result (run (engine_native other)
                  (BlockManager.__contains__ self (block_id b)) (final o))
        = Returned true
  | Raised _ => final o = e
  end
  /\ (forall first rest,
        branch = first :: rest -> contiguous first rest = false ->
        exists x, result o = Raised x /\ final o = e).
Proof.
  intros Hrt o. pose proof (run_put_engine other e self branch Hrt) as Hrun.
  cbv zeta in Hrun. fold o in Hrun. split.
  - destruct (engine_put e branch) as [code|e'] eqn:Hput.
    + destruct Hrun as [(x & _ & ->) Hfin]. exact Hfin.
    + destruct Hrun as [-> ->]. intros b Hb.
      rewrite run_contains_engine. cbn [result]. f_equal.
      apply resolves_spec. left.
      unfold engine_put in Hput. destruct branch as [|first rest]; [discriminate|].
      destruct (negb _); [discriminate|].
      destruct (negb _); [discriminate|].
      injection Hput as <-. cbn [pool].
      exact (insert_branch_holds (first :: rest) (pool e) b Hb).
  - intros first rest -> Hcont.
    unfold engine_put in Hrun. rewrite Hcont in Hrun. cbn [negb] in Hrun.
    destruct (negb _) in Hrun.
    + destruct Hrun as [(x & _ & Hx) Hfin]. eauto.
    + destruct Hrun as [(x & _ & Hx) Hfin]. eauto.
Qed.

Lemma put_all_or_nothing_witness :
  result (run (engine_native no_other)
            (BlockManager.__contains__ self0 "ba")
            (final (run (engine_native no_other)
                      (BlockManager.put self0
                         [["a"%byte]; ["b"%byte; "a"%byte]])
                      empty_engine)))
  = Returned true.
Proof.
  assert (Hrt : forall b : PyBytes,
             ParseFromString (SerializeToString b) = Some b)
    by (intros b; reflexivity).
  destruct (put_all_or_nothing no_other empty_engine self0
              [["a"%byte]; ["b"%byte; "a"%byte]] Hrt) as [Hall _].
  apply (Hall ["b"%byte; "a"%byte]). cbn. tauto.
Defined.

(** C3.  Against the engine of the specification, [__contains__] returns, for
    every id and in every state, a boolean that is true exactly when the id
    is in the Pool or in a registered Store; it raises nothing and leaves the
    engine as it was. *)
Theorem contains_reads_only `{Codec Block} `{BlockRecord Block}
    (other : Native (Engine Block)) (e : Engine Block) (self : BlockManager.t)
    (id : string) :
  let o := run (engine_native other) (BlockManager.__contains__ self id) e in
  (exists b : bool,
     result o = Returned b
     /\ (b = true
         <-> is_Some (pool e !! id)
             \/ exists st, In st (stores e) /\ is_Some (st.2 !! id)))
  /\ final o = e.
Proof.
  intros o. subst o. rewrite run_contains_engine. cbn [result final].
  split; [|reflexivity]. exists (resolves e id). split; [reflexivity|].
  apply resolves_spec.
Qed.

(** C9.  Against the engine of the specification, [put] on the empty
    sequence raises [MissingInput] and leaves the engine as it was. *)
Theorem put_empty_is_MissingInput `{Codec Block} `{BlockRecord Block}
    (other : Native (Engine Block)) (e : Engine Block)
    (self : BlockManager.t) :
  let o := run (engine_native other) (BlockManager.put self []) e in
  result o = Raised (MissingInput "Missing input to put method")
  /\ final o = e.
Proof. split; reflexivity. Qed.

(** ** Further properties of the binding *)

(** *** Marshalling the ids of [get] *)

(** [get] on n ids makes one native call, [block_manager_get_iterator_new],
    with the handle, an array of n slots, the count n and a pointer created
    NULL; slot i holds the encoding of the i-th id, so no slot is left NULL,
    and the loop that fills the array never leaves it.  The call is made for
    the empty list too, with an empty array and count 0. *)
Theorem get_marshals_ids {S} (native : Native S) (s : S)
    (self : BlockManager.t) (block_ids : list string) :
  exists slots : list (option PyBytes),
    calls (run native (BlockManager.get self block_ids) s)
    = [(LIBRARY, "block_manager_get_iterator_new",
        [c_void_p (BlockManager.pointer self);
         c_char_p_array slots;
         c_size_t (Z.of_nat (length block_ids));
         byref (c_void_p NULL)])]
    /\ length slots = length block_ids
    /\ (forall (i : nat) (id : string),
          block_ids !! i = Some id -> slots !! i = Some (Some (encode id)))
    /\ (forall i : nat, slots !! i <> Some None)
    /\ (block_ids = [] -> slots = []).
Proof.
  exists (map (fun id => Some (encode id)) block_ids).
  rewrite get_unfold. unfold _libexec. rewrite run_bind, run__exec.
  cbn [result calls final]. repeat split.
  - destruct (condition_for _); reflexivity.
  - apply length_map.
  - intros i id Hi. change (map ?f block_ids) with (f <$> block_ids).
    rewrite list_lookup_fmap, Hi. reflexivity.
  - intros i. change (map ?f block_ids) with (f <$> block_ids).
    rewrite list_lookup_fmap. destruct (block_ids !! i); discriminate.
  - intros ->. reflexivity.
Qed.

Lemma get_marshals_ids_witness :
  exists slots : list (option PyBytes),
    calls (run scripted (BlockManager.get self0 ["ab"; "c"]) [])
    = [(LIBRARY, "block_manager_get_iterator_new",
        [c_void_p 1; c_char_p_array slots; c_size_t 2; byref (c_void_p NULL)])]
    /\ slots !! 1%nat = Some (Some ["c"%byte]).
Proof.
  destruct (get_marshals_ids scripted [] self0 ["ab"; "c"])
    as (slots & Hcalls & _ & Hslot & _).
  exists slots. split; [exact Hcalls|]. apply (Hslot 1%nat "c"). reflexivity.
Defined.

(** *** From a traversal call to its first block *)

Lemma run_first_of `{Ffi} `{Codec Block} {S} (native : Native S)
    (name : string) (args : list CArg) (s : S) :
  run native
    (first_of (r <- _libexec (name ++ "_new") args ;;
               Return (constructed name r))) s
  = first_outcome native name (new_call name args) s.
Proof.
  unfold first_of, first_outcome, new_call, _libexec.
  rewrite !run_bind, run__exec. cbn [result final calls fst snd].
  destruct (condition_for _) as [e|]; [reflexivity|].
  cbn [run result final calls app constructed].
  destruct (is_null (out_ptr _)) eqn:Hp.
  - rewrite run___next___null by exact Hp. reflexivity.
  - rewrite run___next__ by exact Hp. reflexivity.
Qed.

(** Asking a fresh traversal for its first block, for [get], [branch] and
    [branch_diff]: the constructor's native call is made first; if it fails
    its condition is raised and nothing else is called; if it succeeds but
    leaves the cursor pointer NULL the sequence is empty, [StopIteration]
    with no second native call; otherwise the second call is the
    next-element function of the same class on the pointer the constructor's
    call wrote. *)
Theorem first_block_of_traversal `{Ffi} `{Codec Block} {S}
    (native : Native S) (s : S) (self : BlockManager.t)
    (block_ids : list string) (tip exclude : string) :
  run native (first_of (BlockManager.get self block_ids)) s
  = first_outcome native "block_manager_get_iterator"
      (LIBRARY, "block_manager_get_iterator_new",
       [c_void_p (BlockManager.pointer self);
        c_char_p_array (map (fun id => Some (encode id)) block_ids);
        c_size_t (len block_ids); byref (c_void_p NULL)]) s
  /\ run native (first_of (BlockManager.branch self tip)) s
     = first_outcome native "block_manager_branch_iterator"
         (LIBRARY, "block_manager_branch_iterator_new",
          [c_void_p (BlockManager.pointer self); c_char_p (encode tip);
           byref (c_void_p NULL)]) s
  /\ run native (first_of (BlockManager.branch_diff self tip exclude)) s
     = first_outcome native "block_manager_branch_diff_iterator"
         (LIBRARY, "block_manager_branch_diff_iterator_new",
          [c_void_p (BlockManager.pointer self); c_char_p (encode tip);
           c_char_p (encode exclude); byref (c_void_p NULL)]) s.
Proof.
  split; [|split].
  - rewrite get_unfold.
    exact (run_first_of native _GetBlockIterator.name _ s).
  - exact (run_first_of native _BranchIterator.name _ s).
  - exact (run_first_of native _BranchDiffIterator.name _ s).
Qed.

(** A traversal whose constructor call succeeds and leaves the cursor
    pointer NULL is an empty sequence that costs one native call: its first
    next-element call raises [StopIteration] and its destructor calls
    nothing. *)
Theorem null_cursor_traversal_is_empty `{Ffi} `{Codec Block} {S}
    (native : Native S) (s : S) (self : BlockManager.t) (tip : string) :
  let c := (LIBRARY, "block_manager_branch_iterator_new",
            [c_void_p (BlockManager.pointer self); c_char_p (encode tip);
             byref (c_void_p NULL)]) in
  let r := (native c.1.1 c.1.2 c.2 s).1 in
  res r = ErrorCode.Success -> out_ptr r = NULL ->
  result (run native (first_of (BlockManager.branch self tip)) s)
  = Raised StopIteration
  /\ calls (run native (first_of (BlockManager.branch self tip)) s) = [c]
  /\ calls (run native
              (it <- BlockManager.branch self tip ;; _BlockIterator.__del__ it)
              s) = [c].
Proof.
  intros c r Hres Hptr. subst r c. cbn [fst snd] in *.
  pose proof (run_first_of native _BranchIterator.name
                [c_void_p (BlockManager.pointer self); c_char_p (encode tip);
                 byref (c_void_p NULL)] s) as Hb.
  change (first_of _) with (first_of (BlockManager.branch self tip)) in Hb.
  rewrite Hb. unfold first_outcome, new_call, _BranchIterator.name.
  change ("block_manager_branch_iterator" ++ "_new")
    with "block_manager_branch_iterator_new".
  cbn [fst snd].
  rewrite Hres, Hptr. cbn [condition_for ErrorCode.Success is_null NULL Z.eqb
                           result calls].
  split; [reflexivity|]. split; [reflexivity|].
  unfold BlockManager.branch, _BranchIterator.__init__, _libexec.
  rewrite !run_bind, run__exec. unfold _BranchIterator.name.
  change ("block_manager_branch_iterator" ++ "_new")
    with "block_manager_branch_iterator_new".
  cbn [result final calls fst snd].
  rewrite Hres. cbn [condition_for ErrorCode.Success run result final calls app].
  unfold constructed, _BlockIterator.__del__.
  cbn [_BlockIterator._c_iter_ptr]. rewrite Hptr. reflexivity.
Qed.

Lemma null_cursor_traversal_is_empty_witness :
  result (run scripted
            (first_of (Block := PyBytes) (BlockManager.branch self0 "tip"))
            [reply ErrorCode.Success; reply_vec ErrorCode.Success 5 1])
  = Raised StopIteration.
Proof.
  apply (null_cursor_traversal_is_empty (Block := PyBytes) scripted
           [reply ErrorCode.Success; reply_vec ErrorCode.Success 5 1]
           self0 "tip"); reflexivity.
Defined.

(** *** The destructor's own failure *)

(** On a cursor that is not NULL, [__del__] follows the code of the drop
    call: it returns normally exactly when the call returns [Success] and
    raises the condition of any other code. *)
Theorem del_follows_drop_code (it : _BlockIterator.t) :
  is_null (_BlockIterator._c_iter_ptr it) = false ->
  raises_by_code (_BlockIterator.__del__ it)
    (LIBRARY, _BlockIterator.name it ++ "_drop",
     [c_void_p (_BlockIterator._c_iter_ptr it)]).
Proof.
  intros Hp. unfold _BlockIterator.__del__. rewrite Hp. cbn [negb].
  apply (exec_raises_by_code LIBRARY _ _ (fun _ => tt)).
Qed.

Lemma del_follows_drop_code_witness :
  raises_by_code (_BlockIterator.__del__ cursor0)
    (LIBRARY, "block_manager_get_iterator_drop", [c_void_p 1]).
Proof. apply (del_follows_drop_code cursor0). reflexivity. Defined.

(** *** The handle *)

(** [BlockManager.__init__] follows the code of [block_manager_new], and the
    handle of the object it returns is the pointer that call wrote: a later
    operation on the object passes exactly that pointer as its first
    argument, without testing it. *)
Theorem handle_is_what_new_wrote :
  raises_by_code BlockManager.__init__
    (LIBRARY, "block_manager_new", [byref (c_void_p NULL)])
  /\ forall S (native : Native S) (s : S) (block_id : string),
       let r := (native LIBRARY "block_manager_new"
                   [byref (c_void_p NULL)] s).1 in
       res r = ErrorCode.Success ->
       calls (run native
                (bm <- BlockManager.__init__ ;;
                 BlockManager.__contains__ bm block_id) s)
       = [(LIBRARY, "block_manager_new", [byref (c_void_p NULL)]);
          (LIBRARY, "block_manager_contains",
           [c_void_p (out_ptr r); c_char_p (encode block_id);
            byref (c_bool false)])].
Proof.
  split.
  - apply (exec_raises_by_code LIBRARY _ _
             (fun r => BlockManager.mk (out_ptr r))).
  - intros S native s block_id r Hres. subst r.
    unfold BlockManager.__init__, BlockManager.__contains__, _libexec.
    rewrite !run_bind, !run__exec. cbn [result final calls fst snd].
    rewrite Hres.
    cbn [condition_for ErrorCode.Success run result final calls app].
    cbn [BlockManager.pointer].
    rewrite run_bind, run__exec. cbn [result calls].
    destruct (condition_for _); reflexivity.
Qed.

Lemma handle_is_what_new_wrote_witness :
  calls (run scripted
           (bm <- BlockManager.__init__ ;; BlockManager.__contains__ bm "ab")
           [reply ErrorCode.Success])
  = [(LIBRARY, "block_manager_new", [byref (c_void_p NULL)]);
     (LIBRARY, "block_manager_contains",
      [c_void_p NULL; c_char_p ["a"%byte; "b"%byte]; byref (c_bool false)])].
Proof.
  destruct handle_is_what_new_wrote as [_ Hcalls].
  apply (Hcalls _ scripted [reply ErrorCode.Success] "ab"). reflexivity.
Defined.

(** *** The answer of [__contains__] *)

(** [__contains__] returns [b] exactly when its native call returns
    [Success] and leaves [b] in the flag passed by reference; the flag is the
    whole answer. *)
Theorem contains_returns_flag {S} (native : Native S) (s : S)
    (self : BlockManager.t) (block_id : string) (b : bool) :
  let r := (native LIBRARY "block_manager_contains"
              [c_void_p (BlockManager.pointer self);
               c_char_p (encode block_id); byref (c_bool false)] s).1 in
  result (run native (BlockManager.__contains__ self block_id) s) = Returned b
  <-> res r = ErrorCode.Success /\ out_bool r = b.
Proof.
  intros r. subst r. unfold BlockManager.__contains__, _libexec.
  rewrite run_bind, run__exec. cbn [result final calls].
  destruct (condition_for _) as [e|] eqn:Hc; cbn [run result].
  - split; [discriminate|]. intros [Hs _].
    apply condition_for_None in Hs. congruence.
  - apply condition_for_None in Hc. split.
    + intros [= <-]. split; [exact Hc|reflexivity].
    + intros [_ <-]. reflexivity.
Qed.

(** *** What an exception tells about the code *)

Lemma format_int_inj (z1 z2 : Z) : format_int z1 = format_int z2 -> z1 = z2.
Proof.
  unfold format_int. intros Heq. apply DecimalZ.to_int_inj.
  assert (Hnn : forall z, Z.to_int z <> Decimal.Pos Decimal.Nil
                          /\ Z.to_int z <> Decimal.Neg Decimal.Nil).
  { intros [|p|p]; cbn; split; try discriminate;
      intros [= Hp]; exact (DecimalPos.Unsigned.to_uint_nonnil p Hp). }
  pose proof (NilZero.isi (Z.to_int z1) (proj1 (Hnn z1)) (proj2 (Hnn z1))) as H1.
  pose proof (NilZero.isi (Z.to_int z2) (proj1 (Hnn z2)) (proj2 (Hnn z2))) as H2.
  rewrite Heq in H1. congruence.
Qed.

Lemma condition_for_cases (code : Z) :
  In code [0; 0x01; 0x02; 0x03; 0x04; 0x05; 0x06; 0x11]
  \/ condition_for code
     = Some (Exception ("There was an unknown error: " ++ format_int code)).
Proof.
  destruct code as [|p|p]; [left; cbn; tauto| |right; reflexivity].
  do 6 (try (destruct p as [p|p|]; try (right; reflexivity)));
    left; cbn; tauto.
Qed.

Lemma condition_for_class (code : Z) (e : PyExc) :
  condition_for code = Some e -> In (exc_class e) exec_classes.
Proof.
  destruct (condition_for_cases code) as [Hin|Hc].
  - cbn in Hin. intuition (subst; cbn in *; simplify_eq; cbn; tauto).
  - rewrite Hc. intros [= <-]. cbn. tauto.
Qed.

Lemma condition_for_inj (c1 c2 : Z) :
  condition_for c1 = condition_for c2 -> c1 = c2.
Proof.
  destruct (condition_for_cases c1) as [H1|H1];
    destruct (condition_for_cases c2) as [H2|H2].
  - cbn in H1, H2.
    intuition (subst; first [reflexivity | discriminate]).
  - rewrite H2. cbn in H1. intuition (subst; discriminate).
  - rewrite H1. cbn in H2. intuition (subst; discriminate).
  - rewrite H1, H2. intros [= Heq]. apply format_int_inj. exact Heq.
Qed.

(** The exception [_exec] raises, class and message together, determines the
    code the native call returned: two calls, to whatever functions, that
    raise the same exception returned the same code.  (The class alone does
    not: 0x01 and 0x06 are both [TypeError].) *)
Theorem exception_determines_code {S1 S2}
    (native1 : Native S1) (native2 : Native S2)
    library1 name1 args1 (s1 : S1) library2 name2 args2 (s2 : S2)
    (e : PyExc) :
  result (run native1 (_exec library1 name1 args1) s1) = Raised e ->
  result (run native2 (_exec library2 name2 args2) s2) = Raised e ->
  res (native1 library1 name1 args1 s1).1
  = res (native2 library2 name2 args2 s2).1.
Proof.
  rewrite !run__exec. cbn [result]. intros H1 H2.
  apply condition_for_inj.
  destruct (condition_for (res (native1 _ _ _ _).1)); [|discriminate].
  destruct (condition_for (res (native2 _ _ _ _).1)); [|discriminate].
  congruence.
Qed.

Lemma exception_determines_code_witness :
  res (scripted LIBRARY "f" [] [reply 42]).1
  = res (scripted PY_LIBRARY "g" [] [reply 42; reply 0]).1.
Proof.
  apply (exception_determines_code scripted scripted
           LIBRARY "f" [] [reply 42] PY_LIBRARY "g" [] [reply 42; reply 0]
           (Exception "There was an unknown error: 42"));
    reflexivity.
Defined.

(** *** What can be raised *)

Lemma exec_raises_only {A} library name args (f : NativeReply -> A) :
  raises_only_exec_classes (r <- _exec library name args ;; Return (f r)).
Proof.
  intros S native s e. rewrite run_bind, run__exec. cbn [result].
  destruct (condition_for _) as [e'|] eqn:Hc; cbn [run result].
  - intros [= <-]. exact (condition_for_class _ _ Hc).
  - discriminate.
Qed.

(** Whatever the native library returns, the operations of [BlockManager],
    its constructor, the iterator constructors and [__del__] raise only
    exceptions of the seven classes [_exec] raises; in particular the loops
    of [put] and [get] never raise [IndexError], and a native function that
    returns the end-of-iteration code 0x11 makes any of them raise
    [StopIteration]. *)
Theorem operations_raise_only_exec_classes `{Codec Block}
    (self : BlockManager.t) (name block_id store_name tip exclude : string)
    (block_store : Z) (branch : list Block) (block_ids : list string)
    (it : _BlockIterator.t) :
  raises_only_exec_classes BlockManager.__init__
  /\ raises_only_exec_classes (BlockManager.add_store self name block_store)
  /\ raises_only_exec_classes (BlockManager.put self branch)
  /\ raises_only_exec_classes (BlockManager.ref_block self block_id)
  /\ raises_only_exec_classes (BlockManager.unref_block self block_id)
  /\ raises_only_exec_classes (BlockManager.persist self block_id store_name)
  /\ raises_only_exec_classes (BlockManager.__contains__ self block_id)
  /\ raises_only_exec_classes (BlockManager.get self block_ids)
  /\ raises_only_exec_classes (BlockManager.branch self tip)
  /\ raises_only_exec_classes (BlockManager.branch_diff self tip exclude)
  /\ raises_only_exec_classes (_BlockIterator.__del__ it)
  /\ ~ In IndexError_cls exec_classes
  /\ ~ In DecodeError_cls exec_classes
  /\ (forall S (native : Native S) (s : S),
        res (native LIBRARY "block_manager_put"
               [c_void_p (BlockManager.pointer self);
                c_put_entry_array
                  (map (fun b => Some (_PutEntry.new (SerializeToString b)))
                       branch);
                c_size_t (len branch)] s).1 = ErrorCode.StopIteration ->
        result (run native (BlockManager.put self branch) s)
        = Raised StopIteration).
Proof.
  repeat match goal with |- _ /\ _ => split end;
    try apply exec_raises_only.
  - rewrite put_unfold. apply exec_raises_only.
  - rewrite get_unfold. apply exec_raises_only.
  - unfold _BlockIterator.__del__.
    destruct (negb _); [apply exec_raises_only|].
    intros S native s e. discriminate.
  - cbn. intuition discriminate.
  - cbn. intuition discriminate.
  - intros S native s Hres. rewrite put_unfold. unfold _libexec.
    rewrite run_bind, run__exec. cbn [result]. rewrite Hres. reflexivity.
Qed.

Lemma operations_raise_only_exec_classes_witness :
  result (run scripted (BlockManager.put (Block := PyBytes) self0 [])
            [reply ErrorCode.StopIteration])
  = Raised StopIteration.
Proof.
  destruct (operations_raise_only_exec_classes (Block := PyBytes)
              self0 "" "" "" "" "" 0 [] [] cursor0)
    as (_&_&_&_&_&_&_&_&_&_&_&_&_&Hstop).
  apply (Hstop _ scripted [reply ErrorCode.StopIteration]). reflexivity.
Defined.

(** [__next__] raises [DecodeError] exactly when its native call returns
    [Success] with a vector that is not NULL and whose payload the codec does
    not parse; apart from that it raises only what [_exec] raises. *)
Theorem next_raises_DecodeError_iff `{Ffi} `{Codec Block} {S}
    (native : Native S) (s : S) (it : _BlockIterator.t) :
  (is_null (_BlockIterator._c_iter_ptr it) = false ->
   let c := next_call it in
   let r := (native c.1.1 c.1.2 c.2 s).1 in
   result (run native (_BlockIterator.__next__ it) s) = Raised DecodeError
   <-> res r = ErrorCode.Success
       /\ is_null (vec_ptr (out_vec r)) = false
       /\ ParseFromString (from_rust_vec (out_vec r)) = None)
  /\ (forall e : PyExc,
        result (run native (_BlockIterator.__next__ it) s) = Raised e ->
        e = DecodeError \/ In (exc_class e) exec_classes).
Proof.
  split.
  - intros Hp c r. subst r c.
    rewrite run___next__ by exact Hp. cbn [result]. unfold next_result.
    destruct (condition_for _) as [e|] eqn:Hc.
    + split.
      * intros [= ->]. apply condition_for_class in Hc. cbn in Hc.
        intuition discriminate.
      * intros (Hs & _). apply condition_for_None in Hs. congruence.
    + apply condition_for_None in Hc.
      destruct (is_null (vec_ptr _)).
      * split; [discriminate|]. intros (_ & Hn & _). discriminate Hn.
      * destruct (ParseFromString _) as [b|].
        -- split; [discriminate|]. intros (_ & _ & Hn). discriminate Hn.
        -- split; [auto|reflexivity].
  - intros e.
    destruct (is_null (_BlockIterator._c_iter_ptr it)) eqn:Hp.
    + rewrite run___next___null by exact Hp. cbn [result].
      intros [= <-]. right. cbn. tauto.
    + rewrite run___next__ by exact Hp. cbn [result]. unfold next_result.
      destruct (condition_for _) as [e'|] eqn:Hc.
      * intros [= <-]. right. exact (condition_for_class _ _ Hc).
      * destruct (is_null (vec_ptr _)).
        -- intros [= <-]. right. cbn. tauto.
        -- destruct (ParseFromString _); [discriminate|].
           intros [= <-]. left. reflexivity.
Qed.

Lemma next_raises_DecodeError_iff_witness :
  result (run scripted
            (@_BlockIterator.__next__ toy_ffi PyBytes nonempty_codec cursor0)
            [reply_vec ErrorCode.Success 5 0])
  = Raised DecodeError.
Proof.
  apply (@next_raises_DecodeError_iff toy_ffi PyBytes nonempty_codec _
           scripted [reply_vec ErrorCode.Success 5 0] cursor0).
  - reflexivity.
  - repeat split.
Defined.

(** *** The empty branch *)

(** The binding does not reject an empty branch itself: [put] on the empty
    sequence still makes its native call, with an empty array and count 0,
    and what it does is what that call's code says: it returns normally on
    [Success] and raises [MissingInput] only when the call returns 0x04. *)
Theorem put_empty_reaches_native `{Codec Block} {S} (native : Native S)
    (s : S) (self : BlockManager.t) :
  let c := (LIBRARY, "block_manager_put",
            [c_void_p (BlockManager.pointer self); c_put_entry_array [];
             c_size_t 0]) in
  let r := (native c.1.1 c.1.2 c.2 s).1 in
  let o := run native (BlockManager.put self []) s in
  calls o = [c]
  /\ (result o = Returned tt <-> res r = ErrorCode.Success)
  /\ (result o = Raised (MissingInput "Missing input to put method")
      <-> res r = ErrorCode.MissingInput).
Proof.
  intros c r o. subst o r c. cbn [fst snd].
  change (BlockManager.put self [])
    with (r <- _libexec "block_manager_put"
                 [c_void_p (BlockManager.pointer self);
                  c_put_entry_array []; c_size_t 0] ;;
          Return tt).
  unfold _libexec. rewrite run_bind, run__exec. cbn [result final calls].
  split; [|split].
  - destruct (condition_for _); reflexivity.
  - destruct (condition_for _) as [e|] eqn:Hc; cbn [run result].
    + split; [discriminate|]. intros Hs.
      apply condition_for_None in Hs. congruence.
    + apply condition_for_None in Hc. tauto.
  - destruct (condition_for _) as [e|] eqn:Hc; cbn [run result].
    + split.
      * intros [= ->]. apply condition_for_inj. rewrite Hc. reflexivity.
      * intros Hs. rewrite Hs in Hc. cbn in Hc. congruence.
    + apply condition_for_None in Hc. split; [discriminate|].
      rewrite Hc. discriminate.
Qed.
